(** * The Linear sdk plugin: node inspectors, validation and the plugin entry point

    A shallow embedding of [packages/sdk-plugin/src/index.ts] and of the
    inspector functions that follow it in the same source unit
    ([hasOptionalVariable], [hasVariable], [hasOtherVariable], [isIdVariable],
    [isRequiredVariable], [getTypeName]), with the properties the
    specification states about them. *)

From Stdlib Require Import Strings.String Strings.Ascii Lists.List Bool.Bool.
From Stdlib Require Import Arith.PeanoNat ZArith.ZArith Lia.
From Stdlib Require Numbers.DecimalString.
Import ListNotations.

Local Open Scope string_scope.

(** ** The part of the graphql AST the plugin reads *)

(** The members of graphql's [Kind] enumeration the code compares against.
    They are plain strings, compared with [===]. *)
Module Kind.
Definition NAME : string := "Name".
Definition VARIABLE : string := "Variable".
Definition VARIABLE_DEFINITION : string := "VariableDefinition".
Definition NAMED_TYPE : string := "NamedType".
Definition LIST_TYPE : string := "ListType".
Definition NON_NULL_TYPE : string := "NonNullType".
End Kind.

(** [NameNode]: [{ kind: Kind.NAME, value }]. *)
Record NameNode : Type := { value : string }.

(** [VariableNode]: [{ kind: Kind.VARIABLE, name }]. *)
Record VariableNode : Type := { name : NameNode }.

(** [TypeNode = NamedTypeNode | ListTypeNode | NonNullTypeNode].  graphql
    restricts the argument of a non-null wrapper to a named or list type; the
    embedding allows any type node there, which only enlarges the domain the
    theorems below cover. *)
Inductive TypeNode : Type :=
| NamedTypeNode (n : NameNode)
| ListTypeNode (t : TypeNode)
| NonNullTypeNode (t : TypeNode).

(** The [kind] field of a type node. *)
Definition kind (t : TypeNode) : string :=
  match t with
  | NamedTypeNode _ => Kind.NAMED_TYPE
  | ListTypeNode _ => Kind.LIST_TYPE
  | NonNullTypeNode _ => Kind.NON_NULL_TYPE
  end.

(** [ValueNode]: the constant given as a variable's default, here the scalar
    literals.  Every value node, the null literal included, is an object and
    so is truthy. *)
Inductive ValueNode : Type :=
| IntValue (v : string)
| FloatValue (v : string)
| StringValue (v : string)
| BooleanValue (b : bool)
| NullValue
| EnumValue (v : string).

(** [VariableDefinitionNode]; [defaultValue] is an optional field. *)
Record VariableDefinitionNode : Type := {
  variable : VariableNode;
  type : TypeNode;
  defaultValue : option ValueNode
}.

(** [OperationDefinitionNode], reduced to the field the inspectors read;
    [variableDefinitions] is an optional field. *)
Record OperationDefinitionNode : Type := {
  variableDefinitions : option (list VariableDefinitionNode)
}.

(** [ApiDefinition] of [./types]: an operation node with the path of keys
    under which it is chained (empty for a root operation). *)
Record ApiDefinition : Type := {
  node : OperationDefinitionNode;
  path : list string
}.

(** Javascript truthiness of the two shapes the inspectors test. *)
Definition truthy_length (n : nat) : bool := negb (n =? 0)%nat.

Definition truthy_optional {A : Type} (x : option A) : bool :=
  match x with
  | Some _ => true
  | None => false
  end.

(** The constants of [./constants] the code refers to. *)
Module c.
(** Modelled from the spec: the constant [ID_NAME] of [./constants], which
    is not among the sources.  The spec calls it the identifier convention
    and its example names the variable [id], as does the comment on
    [isIdVariable]. *)
Definition ID_NAME : string := "id".
End c.

(** ** Node inspectors *)

Section Inspectors.

(** The reserved variable name, [c.ID_NAME] in the source.  The inspectors
    are stated for any value of it. *)
Variable ID_NAME : string.

(** Is this variable a non null type *)
Definition isRequiredVariable (v : VariableDefinitionNode) : bool :=
  (kind (type v) =? Kind.NON_NULL_TYPE)%string.

(** Is the variable named id and is it required *)
Definition isIdVariable (v : VariableDefinitionNode) : bool :=
  (value (name (variable v)) =? ID_NAME)%string && isRequiredVariable v.

(** Does the operation have optional variables *)
Definition hasOptionalVariable (o : ApiDefinition) : bool :=
  match variableDefinitions (node o) with
  | None => true
  | Some vs =>
      (length vs =? 0)%nat
      || forallb
           (fun v =>
              (if truthy_length (length (path o)) then isIdVariable v else false)
              || negb (isRequiredVariable v)
              || truthy_optional (defaultValue v))
           vs
  end.

(** Does the operation have a variable that matches the arg.  The optional
    chain yields [undefined] for an absent list, which [Boolean] maps to
    [false]. *)
Definition hasVariable (o : ApiDefinition) (variableName : string) : bool :=
  match variableDefinitions (node o) with
  | None => false
  | Some vs =>
      existsb (fun v => (value (name (variable v)) =? variableName)%string) vs
  end.

(** Does the operation have a variable other than the arg *)
Definition hasOtherVariable (o : ApiDefinition) (variableName : string) : bool :=
  match variableDefinitions (node o) with
  | None => false
  | Some vs =>
      existsb
        (fun v => negb (value (name (variable v)) =? variableName)%string) vs
  end.

End Inspectors.

(** The variable list of an operation, an absent list read as the empty one. *)
Definition variables_of (o : ApiDefinition) : list VariableDefinitionNode :=
  match variableDefinitions (node o) with
  | None => []
  | Some vs => vs
  end.

(** The three exemptions as the specification words them: the variable is
    named by the identifier convention and required, or it is not required,
    or it has a default value.  The path plays no part. *)
Definition exempt_by_spec (ID_NAME : string) (v : VariableDefinitionNode) : Prop :=
  (value (name (variable v)) = ID_NAME /\ isRequiredVariable v = true)
  \/ isRequiredVariable v = false
  \/ defaultValue v <> None.

Definition all_optional_by_spec (ID_NAME : string) (o : ApiDefinition) : Prop :=
  variables_of o = [] \/ Forall (exempt_by_spec ID_NAME) (variables_of o).

(** The exemptions as the code applies them: the identifier exemption is
    gated on a non-empty path. *)
Definition exempt_on_path (ID_NAME : string) (p : list string)
    (v : VariableDefinitionNode) : Prop :=
  (p <> [] /\ value (name (variable v)) = ID_NAME /\ isRequiredVariable v = true)
  \/ isRequiredVariable v = false
  \/ defaultValue v <> None.

(** Builders for the examples. *)
Definition named (s : string) : TypeNode := NamedTypeNode {| value := s |}.

Definition variable_def (n : string) (t : TypeNode) (d : option ValueNode)
  : VariableDefinitionNode :=
  {| variable := {| name := {| value := n |} |}; type := t; defaultValue := d |}.

Definition operation (vs : option (list VariableDefinitionNode))
    (p : list string) : ApiDefinition :=
  {| node := {| variableDefinitions := vs |}; path := p |}.

(** ** Javascript values and completions *)

(** What a call completes with: a returned value or a thrown one. *)
Inductive result (E A : Type) : Type :=
| Return (a : A)
| Throw (e : E).

Arguments Return {E A} a.
Arguments Throw {E A} e.

(** The error objects the code of this file can raise itself: the engine's
    [TypeError] on reading a property of [undefined] or [null], and
    [new Error(message)]. *)
Inductive JsError : Type :=
| TypeError
| Error (message : string).

(** A value as the running program sees it, whatever its declared type.  Of an
    object the fields [kind], [type], [name] and [value] are recorded, the
    only ones the code reads: [kind] is [None] when the field is absent or is
    not a string, the others are [JsUndefined] when absent.  Numbers are the
    integral ones. *)
Inductive JsValue : Type :=
| JsUndefined
| JsNull
| JsBoolean (b : bool)
| JsNumber (n : Z)
| JsString (s : string)
| JsObject (okind : option string) (otype oname ovalue : JsValue).

(** [typeof x === "string"] *)
Definition is_string (x : JsValue) : bool :=
  match x with
  | JsString _ => true
  | _ => false
  end.

(** Truthiness, as [!x] and [x ? _ : _] test it. *)
Definition truthy (x : JsValue) : bool :=
  match x with
  | JsUndefined | JsNull => false
  | JsBoolean b => b
  | JsNumber n => negb (n =? 0)%Z
  | JsString s => negb (s =? "")%string
  | JsObject _ _ _ _ => true
  end.

(** [x.kind === k] for a value [x] that has properties. *)
Definition kind_is (okind : option string) (k : string) : bool :=
  match okind with
  | Some k' => (k' =? k)%string
  | None => false
  end.

(** Get the string type name from any type node.  Reading [.kind] of
    [undefined] or [null] is the one step that can throw; a boolean or a
    number has no [kind] and falls through every comparison. *)
Fixpoint getTypeName (type : JsValue) : result JsError string :=
  match type with
  | JsString s => Return s
  | JsUndefined | JsNull => Throw TypeError
  | JsBoolean _ | JsNumber _ => Return "UNKNOWN_OPERATION_TYPE"
  | JsObject okind otype oname ovalue =>
      if kind_is okind Kind.NON_NULL_TYPE then getTypeName otype
      else if kind_is okind Kind.NAMED_TYPE then getTypeName oname
      else if kind_is okind Kind.NAME then getTypeName ovalue
      else if kind_is okind Kind.LIST_TYPE then getTypeName otype
      else Return "UNKNOWN_OPERATION_TYPE"
  end.

(** The typed nodes as runtime objects. *)
Definition js_of_NameNode (n : NameNode) : JsValue :=
  JsObject (Some Kind.NAME) JsUndefined JsUndefined (JsString (value n)).

Fixpoint js_of_TypeNode (t : TypeNode) : JsValue :=
  match t with
  | NamedTypeNode n =>
      JsObject (Some Kind.NAMED_TYPE) JsUndefined (js_of_NameNode n) JsUndefined
  | ListTypeNode t' =>
      JsObject (Some Kind.LIST_TYPE) (js_of_TypeNode t') JsUndefined JsUndefined
  | NonNullTypeNode t' =>
      JsObject (Some Kind.NON_NULL_TYPE) (js_of_TypeNode t') JsUndefined JsUndefined
  end.

(** The declared parameter type of [getTypeName]:
    [string | NameNode | NonNullTypeNode | NamedTypeNode | ListTypeNode]. *)
Inductive TypeNameArg : Type :=
| ArgString (s : string)
| ArgName (n : NameNode)
| ArgType (t : TypeNode).

Definition js_of_arg (a : TypeNameArg) : JsValue :=
  match a with
  | ArgString s => JsString s
  | ArgName n => js_of_NameNode n
  | ArgType t => js_of_TypeNode t
  end.

(** The innermost named type's name, as the specification describes the
    result: strip non-null and list wrappers down to the named type. *)
Fixpoint innermost_name (t : TypeNode) : string :=
  match t with
  | NamedTypeNode n => value n
  | ListTypeNode t' => innermost_name t'
  | NonNullTypeNode t' => innermost_name t'
  end.

Definition resolved_name (a : TypeNameArg) : string :=
  match a with
  | ArgString s => s
  | ArgName n => value n
  | ArgType t => innermost_name t
  end.

(** The wrappers as runtime objects, around any value. *)
Definition wrap_non_null (x : JsValue) : JsValue :=
  JsObject (Some Kind.NON_NULL_TYPE) x JsUndefined JsUndefined.

Definition wrap_list (x : JsValue) : JsValue :=
  JsObject (Some Kind.LIST_TYPE) x JsUndefined JsUndefined.

(** A [kind] none of the four the function dispatches on. *)
Definition unrecognized (okind : option string) : Prop :=
  okind <> Some Kind.NON_NULL_TYPE /\ okind <> Some Kind.NAMED_TYPE
  /\ okind <> Some Kind.NAME /\ okind <> Some Kind.LIST_TYPE.

(** ** [extname] of Node's [path] module *)

(** The POSIX [extname], transcribed from Node's [lib/path.js]: one backward
    scan over the characters of the path that tracks where the last path
    component ends, where its last dot is and what was seen before that dot.
    Indices are integers because the scan uses [-1] for "not seen yet". *)
Module NodePath.

Definition CHAR_FORWARD_SLASH : Z := 47.
Definition CHAR_DOT : Z := 46.

(** [path.charCodeAt(i)] for [i] within the string. *)
Definition charCodeAt (path : string) (i : nat) : Z :=
  match String.get i path with
  | Some ch => Z.of_nat (nat_of_ascii ch)
  | None => -1
  end.

(** The local variables of the scan. *)
Record scan : Type := {
  startDot : Z;
  startPart : Z;
  end_ : Z;
  matchedSlash : bool;
  preDotState : Z
}.

Definition scan_init : scan :=
  {| startDot := -1; startPart := 0; end_ := -1;
     matchedSlash := true; preDotState := 0 |}.

(** The first non-separator seen from the right marks the end of the
    extension. *)
Definition mark_end (i : nat) (st : scan) : scan :=
  if (end_ st =? -1)%Z
  then {| startDot := startDot st; startPart := startPart st;
          end_ := Z.of_nat i + 1; matchedSlash := false;
          preDotState := preDotState st |}
  else st.

(** The update for a character that is not a separator. *)
Definition note_char (code : Z) (i : nat) (st : scan) : scan :=
  if (code =? CHAR_DOT)%Z then
    if (startDot st =? -1)%Z
    then {| startDot := Z.of_nat i; startPart := startPart st;
            end_ := end_ st; matchedSlash := matchedSlash st;
            preDotState := preDotState st |}
    else if negb (preDotState st =? 1)%Z
    then {| startDot := startDot st; startPart := startPart st;
            end_ := end_ st; matchedSlash := matchedSlash st;
            preDotState := 1 |}
    else st
  else if negb (startDot st =? -1)%Z
  then {| startDot := startDot st; startPart := startPart st;
          end_ := end_ st; matchedSlash := matchedSlash st;
          preDotState := -1 |}
  else st.

(** [for (let i = path.length - 1; i >= 0; --i)]: [extname_scan path n st]
    runs the iterations for the indices below [n], from [n - 1] down. *)
Fixpoint extname_scan (path : string) (n : nat) (st : scan) : scan :=
  match n with
  | O => st
  | S i =>
      let code := charCodeAt path i in
      if (code =? CHAR_FORWARD_SLASH)%Z then
        if negb (matchedSlash st)
        then {| startDot := startDot st; startPart := Z.of_nat i + 1;
                end_ := end_ st; matchedSlash := matchedSlash st;
                preDotState := preDotState st |}
        else extname_scan path i st
      else extname_scan path i (note_char code i (mark_end i st))
  end.

(** [path.slice(from, to)] for [0 <= from <= to]. *)
Definition slice (path : string) (from to : Z) : string :=
  String.substring (Z.to_nat from) (Z.to_nat (to - from)) path.

Definition extname (path : string) : string :=
  let st := extname_scan path (String.length path) scan_init in
  if (startDot st =? -1)%Z
     || (end_ st =? -1)%Z
     || (preDotState st =? 0)%Z
     || ((preDotState st =? 1)%Z
         && (startDot st =? end_ st - 1)%Z
         && (startDot st =? startPart st + 1)%Z)
  then ""
  else slice path (startDot st) (end_ st).

End NodePath.

(** ** Logging and exceptions *)

(** Modelled from the spec: the [logger] of [@linear/common], which is not
    among the sources.  The spec has failures logged at a fatal level and
    nothing else depends on the logger, so a call appends one entry to a log
    and returns. *)
Inductive LogEntry (D E : Type) : Type :=
| LogInfo (message : string)
| LogDebug (data : D)
| LogFatal (err : E).

Arguments LogInfo {D E} message.
Arguments LogDebug {D E} data.
Arguments LogFatal {D E} err.

(** Computations that append to a log of [L] entries and either return or
    throw a value of type [E]. *)
Definition M (E L A : Type) : Type := list L -> list L * result E A.

Section Monad.

Context {E L : Type}.

Definition ret {A : Type} (a : A) : M E L A := fun log => (log, Return a).

Definition throw {A : Type} (e : E) : M E L A := fun log => (log, Throw e).

Definition bind {A B : Type} (m : M E L A) (k : A -> M E L B) : M E L B :=
  fun log =>
    match m log with
    | (log', Return a) => k a log'
    | (log', Throw e) => (log', Throw e)
    end.

(** [try { m } catch (e) { h e }] *)
Definition try_catch {A : Type} (m : M E L A) (h : E -> M E L A) : M E L A :=
  fun log =>
    match m log with
    | (log', Return a) => (log', Return a)
    | (log', Throw e) => h e log'
    end.

Definition write_log (entry : L) : M E L unit :=
  fun log => ((log ++ [entry])%list, Return tt).

(** [xs.map(f)] for a callback that may throw: the elements are visited in
    order and the first exception ends the loop. *)
Fixpoint map_M {A B : Type} (f : A -> M E L B) (xs : list A) : M E L (list B) :=
  match xs with
  | [] => ret []
  | x :: xs' =>
      bind (f x) (fun y => bind (map_M f xs') (fun ys => ret (y :: ys)))
  end.

End Monad.

Declare Scope js_scope.
Delimit Scope js_scope with js.

Notation "x <- m ;; k" := (bind m (fun x => k))
  (at level 61, m at next level, right associativity) : js_scope.
Notation "m ;; k" := (bind m (fun _ => k))
  (at level 61, right associativity) : js_scope.

(** What the computation completes with, and the log it leaves. *)
Definition completion {E L A : Type} (m : M E L A) (log : list L) : result E A :=
  snd (m log).

Definition log_after {E L A : Type} (m : M E L A) (log : list L) : list L :=
  fst (m log).

(** ** The plugin configuration *)

(** [DocumentMode] of [@graphql-codegen/visitor-plugin-common]. *)
Module DocumentMode.
Inductive t : Type :=
| graphQLTag
| documentNode
| documentNodeImportFragments
| external
| string.

Definition eqb (a b : t) : bool :=
  match a, b with
  | graphQLTag, graphQLTag
  | documentNode, documentNode
  | documentNodeImportFragments, documentNodeImportFragments
  | external, external
  | string, string => true
  | _, _ => false
  end.
End DocumentMode.

(** [RawSdkPluginConfig] of [./config], reduced to the two settings the entry
    points read.  The configuration comes from the user's codegen file, so
    [documentFile] is whatever value was written there. *)
Record RawSdkPluginConfig : Type := {
  documentFile : JsValue;
  documentMode : option DocumentMode.t
}.

(** [config.documentMode !== DocumentMode.string] *)
Definition not_string_mode (m : option DocumentMode.t) : bool :=
  match m with
  | Some m' => negb (DocumentMode.eqb m' DocumentMode.string)
  | None => true
  end.

(** The double quote and the line feed, for the message and output texts. *)
Definition dq : string := String "034"%char EmptyString.
Definition lf : string := String "010"%char EmptyString.

(** A value interpolated in a template literal. *)
Definition template (x : JsValue) : string :=
  match x with
  | JsUndefined => "undefined"
  | JsNull => "null"
  | JsBoolean true => "true"
  | JsBoolean false => "false"
  | JsNumber n => DecimalString.NilZero.string_of_int (Z.to_int n)
  | JsString s => s
  | JsObject _ _ _ _ => "[object Object]"
  end.

(** ** The entry points *)

Section EntryPoints.

(** The host's schema and document-file objects; the entry points only pass
    them on. *)
Variables GraphQLSchema DocumentFile : Type.

Definition packageName : string := "@linear/sdk-plugin".

Definition prefix : string :=
  "Plugin " ++ dq ++ packageName ++ dq ++ " config requires".

Definition extension_message (outputFile : string) : string :=
  prefix ++ " output file extension to be " ++ dq ++ ".ts" ++ dq
  ++ " but is " ++ dq ++ outputFile ++ dq.

Definition documentFile_message : string :=
  prefix ++ " documentFile to be a string path to a document file generated by "
  ++ dq ++ "typed-document-node" ++ dq.

(** Validate use of the plugin.  The promise the async function returns is
    read as its completion: fulfilled is [Return], rejected is [Throw]. *)
Definition validate (schema : GraphQLSchema) (documents : list DocumentFile)
    (config : RawSdkPluginConfig) (outputFile : string)
  : M JsError (LogEntry RawSdkPluginConfig JsError) unit :=
  (write_log (LogInfo ("Validating " ++ packageName)) ;;
   write_log (LogDebug config) ;;
   (if negb (NodePath.extname outputFile =? ".ts")%string
    then throw (Error (extension_message outputFile))
    else ret tt) ;;
   (if negb (truthy (documentFile config))
       || negb (is_string (documentFile config))
    then throw (Error documentFile_message)
    else ret tt))%js.

(** The rest of the plugin, which is not among the sources: the document
    classifier of [./documents], the fragment and requester printers, the
    visitor factory, graphql's [concatAST], and the helpers and constant of
    [@linear/common] and [./constants].  Each call may log and may throw. *)
Variables SdkDocument DocumentNode FragmentDefinition SdkVisitorResult exn : Type.

Definition DebugData : Type := list (string * nat).
Definition PluginLog : Type := LogEntry DebugData exn.

Variable processSdkDocuments : list DocumentFile -> M exn PluginLog (list SdkDocument).
Variable getRootDocuments : list SdkDocument -> M exn PluginLog (list DocumentNode).
Variable concatAST : list DocumentNode -> M exn PluginLog DocumentNode.
Variable getFragmentsFromAst :
  DocumentNode -> RawSdkPluginConfig -> M exn PluginLog (list FragmentDefinition).
Variable createVisitor :
  GraphQLSchema -> list DocumentFile -> list DocumentNode ->
  list FragmentDefinition -> RawSdkPluginConfig -> option string ->
  M exn PluginLog SdkVisitorResult.
Variable getChainKeys : list SdkDocument -> M exn PluginLog (list string).
Variable getChildDocuments :
  list SdkDocument -> string -> M exn PluginLog (list DocumentNode).
Variable printRequesterType : RawSdkPluginConfig -> M exn PluginLog (list string).
Variable filterJoin : list string -> string -> M exn PluginLog string.
Variable nonNullable : option string -> bool.
Variable sdkContent : SdkVisitorResult -> string.
Variable NAMESPACE_DOCUMENT : string.

(** The structure the plugin returns to the host. *)
Record PluginOutput : Type := {
  prepend : list (option string);
  content : string
}.

(** The callback of [chainKeys.map]. *)
Definition chainVisitor (schema : GraphQLSchema) (documents : list DocumentFile)
    (config : RawSdkPluginConfig) (sdkDocuments : list SdkDocument)
    (rootFragments : list FragmentDefinition) (chainKey : string)
  : M exn PluginLog SdkVisitorResult :=
  (write_log (LogInfo ("Generating " ++ chainKey ++ " sdk")) ;;
   chainDocuments <- getChildDocuments sdkDocuments chainKey ;;
   write_log (LogDebug [(chainKey ++ "Documents", length chainDocuments)]) ;;
   createVisitor schema documents chainDocuments rootFragments config
     (Some chainKey))%js.

(** The body of the [try] block. *)
Definition plugin_try (schema : GraphQLSchema) (documents : list DocumentFile)
    (config : RawSdkPluginConfig) : M exn PluginLog PluginOutput :=
  (write_log (LogInfo "Processing documents") ;;
   sdkDocuments <- processSdkDocuments documents ;;
   rootDocuments <- getRootDocuments sdkDocuments ;;
   rootAst <- concatAST rootDocuments ;;
   rootFragments <- getFragmentsFromAst rootAst config ;;
   write_log (LogInfo "Generating root sdk") ;;
   write_log (LogDebug [("sdkDocuments", length sdkDocuments);
                        ("rootDocuments", length rootDocuments);
                        ("rootFragments", length rootFragments)]) ;;
   rootVisitor <- createVisitor schema documents rootDocuments rootFragments
                    config None ;;
   chainKeys <- getChainKeys sdkDocuments ;;
   chainVisitors <- map_M (chainVisitor schema documents config sdkDocuments
                             rootFragments) chainKeys ;;
   write_log (LogInfo "Printing sdk") ;;
   requester <- printRequesterType config ;;
   text <- filterJoin
             ([("import * as " ++ NAMESPACE_DOCUMENT ++ " from '"
                  ++ template (documentFile config) ++ "'")%string;
               ("export * from '" ++ template (documentFile config) ++ "'"
                  ++ lf)%string]
              ++ requester
              ++ List.map sdkContent chainVisitors
              ++ [sdkContent rootVisitor])%list
             lf ;;
   ret {| prepend :=
            List.filter nonNullable
              [Some "/* eslint-disable @typescript-eslint/no-unused-vars */";
               if not_string_mode (documentMode config)
               then Some "import { DocumentNode } from 'graphql'"
               else None;
               Some "import { ResultOf } from '@graphql-typed-document-node/core'"];
          content := text |})%js.

(** Graphql-codegen plugin for outputting the typed Linear sdk *)
Definition plugin (schema : GraphQLSchema) (documents : list DocumentFile)
    (config : RawSdkPluginConfig) : M exn PluginLog PluginOutput :=
  try_catch (plugin_try schema documents config)
    (fun e => (write_log (LogFatal e) ;; throw e)%js).

End EntryPoints.

(** ** Reference notions and example inputs *)

(** [s.endsWith(suffix)] *)
Definition ends_with (s suffix : string) : bool :=
  (String.length suffix <=? String.length s)%nat
  && (String.substring (String.length s - String.length suffix)
        (String.length suffix) s =? suffix)%string.

(** A non-empty string. *)
Definition nonempty_string (x : JsValue) : Prop :=
  exists s, x = JsString s /\ s <> "".

(** The call rejects. *)
Definition throws {E L A : Type} (m : M E L A) (log : list L) : Prop :=
  exists e, completion m log = Throw e.

(** The operations of the examples. *)
Definition id_only : ApiDefinition :=
  operation (Some [variable_def "id" (NonNullTypeNode (named "String")) None]) [].

Definition id_only_chained : ApiDefinition :=
  operation (Some [variable_def "id" (NonNullTypeNode (named "String")) None])
    ["issue"].

Definition input_only : ApiDefinition :=
  operation
    (Some [variable_def "input" (NonNullTypeNode (named "IssueCreateInput")) None])
    [].

Definition id_and_input (t1 t2 : TypeNode) (p : list string) : ApiDefinition :=
  operation
    (Some [variable_def "id" (NonNullTypeNode t1) None;
           variable_def "input" (NonNullTypeNode t2) None])
    p.

Definition documents_config : RawSdkPluginConfig :=
  {| documentFile := JsString "./documents.ts";
     documentMode := Some DocumentMode.string |}.

(** Two hosts for the plugin over unit-typed documents, with thrown values
    that are strings.  Both classify every input under the one chain key
    [issue]; in the first the visitor factory throws for a chained group, in
    the second it returns. *)
Definition sample_createVisitor (fails : bool) (schema : unit)
    (documents rootDocuments fragments : list unit) (config : RawSdkPluginConfig)
    (chainKey : option string) : M string (LogEntry (list (string * nat)) string) string :=
  match chainKey with
  | None => ret "root sdk"
  | Some k => if fails then throw ("no operations for " ++ k) else ret (k ++ " sdk")
  end.

Definition sample_plugin (fails : bool)
  : M string (LogEntry (list (string * nat)) string) PluginOutput :=
  plugin unit unit unit unit unit string string
    (fun documents => ret documents)
    (fun sdkDocuments => ret sdkDocuments)
    (fun rootDocuments => ret tt)
    (fun rootAst config => ret [])
    (sample_createVisitor fails)
    (fun sdkDocuments => ret ["issue"])
    (fun sdkDocuments chainKey => ret sdkDocuments)
    (fun config => ret ["requester"])
    (fun parts separator => ret (String.concat separator parts))
    (fun line => truthy_optional line)
    (fun visitor => visitor)
    "D"
    tt [tt; tt] documents_config.

Definition sample_plugin_try (fails : bool)
  : M string (LogEntry (list (string * nat)) string) PluginOutput :=
  plugin_try unit unit unit unit unit string string
    (fun documents => ret documents)
    (fun sdkDocuments => ret sdkDocuments)
    (fun rootDocuments => ret tt)
    (fun rootAst config => ret [])
    (sample_createVisitor fails)
    (fun sdkDocuments => ret ["issue"])
    (fun sdkDocuments chainKey => ret sdkDocuments)
    (fun config => ret ["requester"])
    (fun parts separator => ret (String.concat separator parts))
    (fun line => truthy_optional line)
    (fun visitor => visitor)
    "D"
    tt [tt; tt] documents_config.

Definition sample_output : PluginOutput :=
  {| prepend :=
       [Some "/* eslint-disable @typescript-eslint/no-unused-vars */";
        Some "import { ResultOf } from '@graphql-typed-document-node/core'"];
     content :=
       "import * as D from './documents.ts'" ++ lf
       ++ "export * from './documents.ts'" ++ lf ++ lf
       ++ "requester" ++ lf
       ++ "issue sdk" ++ lf
       ++ "root sdk" |}.

(** The variable carries the given name. *)
Definition named_as (n : string) (v : VariableDefinitionNode) : Prop :=
  value (name (variable v)) = n.

(** A variable that forces a mandatory parameter: required, without default,
    and not the identifier variable of a chained operation. *)
Definition blocking (ID_NAME : string) (p : list string)
    (v : VariableDefinitionNode) : Prop :=
  isRequiredVariable v = true
  /\ defaultValue v = None
  /\ (p = [] \/ value (name (variable v)) <> ID_NAME).

(** The two type wrappers, and a stack of them put around a value, the first
    of the list outermost. *)
Inductive Wrapper : Type :=
| NonNullWrapper
| ListWrapper.

Definition wrap (w : Wrapper) (x : JsValue) : JsValue :=
  match w with
  | NonNullWrapper => wrap_non_null x
  | ListWrapper => wrap_list x
  end.

Definition wrap_all (ws : list Wrapper) (x : JsValue) : JsValue :=
  fold_right wrap x ws.

(** A call that returns whatever the log it starts from. *)
Definition always_returns {E L A : Type} (m : M E L A) : Prop :=
  forall log : list L, exists (log' : list L) (a : A), m log = (log', Return a).

(** A host whose document processing throws. *)
Definition sample_plugin_unprocessed
  : M string (LogEntry (list (string * nat)) string) PluginOutput :=
  plugin unit unit unit unit unit string string
    (fun documents => throw "cannot process documents")
    (fun sdkDocuments => ret sdkDocuments)
    (fun rootDocuments => ret tt)
    (fun rootAst config => ret [])
    (sample_createVisitor false)
    (fun sdkDocuments => ret ["issue"])
    (fun sdkDocuments chainKey => ret sdkDocuments)
    (fun config => ret ["requester"])
    (fun parts separator => ret (String.concat separator parts))
    (fun line => truthy_optional line)
    (fun visitor => visitor)
    "D"
    tt [tt; tt] documents_config.

(** * Properties *)

(** ** The inspectors *)

Lemma isRequiredVariable_true (v : VariableDefinitionNode) :
  isRequiredVariable v = true <-> exists t, type v = NonNullTypeNode t.
Proof.
  unfold isRequiredVariable.
  destruct (type v) as [n | t | t]; simpl; split; intro H;
    try discriminate; try reflexivity.
  - destruct H as [t' H]; discriminate.
  - destruct H as [t' H]; discriminate.
  - now exists t.
Qed.

Lemma truthy_length_true {A : Type} (l : list A) :
  truthy_length (length l) = true <-> l <> [].
Proof.
  destruct l; simpl; split; intro H; try reflexivity; try discriminate.
  now contradiction H.
Qed.

Lemma truthy_optional_true {A : Type} (x : option A) :
  truthy_optional x = true <-> x <> None.
Proof.
  destruct x; simpl; split; intro H; try reflexivity; try discriminate.
  now contradiction H.
Qed.

(** The callback of [every], read as a proposition. *)
Lemma every_callback_spec (ID_NAME : string) (p : list string)
    (v : VariableDefinitionNode) :
  (if truthy_length (length p) then isIdVariable ID_NAME v else false)
  || negb (isRequiredVariable v) || truthy_optional (defaultValue v) = true
  <-> exempt_on_path ID_NAME p v.
Proof.
  unfold exempt_on_path, isIdVariable.
  rewrite !orb_true_iff, negb_true_iff, truthy_optional_true.
  destruct (truthy_length (length p)) eqn:Hp.
  - apply truthy_length_true in Hp.
    rewrite andb_true_iff, String.eqb_eq. tauto.
  - assert (p = []) as ->.
    { destruct p; [reflexivity | discriminate]. }
    split.
    + intros [[H | H] | H]; [discriminate | tauto | tauto].
    + intros [[H _] | [H | H]]; [now contradiction H | tauto | tauto].
Qed.

(** The check against the exemptions as the code applies them. *)
Lemma hasOptionalVariable_true (ID_NAME : string) (o : ApiDefinition) :
  hasOptionalVariable ID_NAME o = true
  <-> variables_of o = []
      \/ Forall (exempt_on_path ID_NAME (path o)) (variables_of o).
Proof.
  unfold hasOptionalVariable, variables_of.
  destruct (variableDefinitions (node o)) as [vs |].
  - rewrite orb_true_iff, Nat.eqb_eq, length_zero_iff_nil, forallb_forall,
      Forall_forall.
    split; (intros [H | H]; [now left | right]);
      intros v Hv; apply every_callback_spec; auto.
  - split; [now left | reflexivity].
Qed.

(** C1, as the code has it: the optional-variable check returns true exactly
    when the variable list is empty (or absent), or every variable is named by
    the identifier convention and required while the operation's path is
    non-empty, or is not required, or has a default value.  The identifier
    exemption is gated on the path. *)
Theorem hasOptionalVariable_iff (ID_NAME : string) (o : ApiDefinition) :
  hasOptionalVariable ID_NAME o = true
  <-> variables_of o = []
      \/ Forall (exempt_on_path ID_NAME (path o)) (variables_of o).
Proof.
  exact (hasOptionalVariable_true ID_NAME o).
Qed.

(** A required variable without default blocks the check, unless it is the
    identifier variable of a chained operation. *)
Lemma hasOptionalVariable_blocked (ID_NAME : string) (o : ApiDefinition)
    (v : VariableDefinitionNode) :
  In v (variables_of o) ->
  isRequiredVariable v = true ->
  defaultValue v = None ->
  path o = [] \/ value (name (variable v)) <> ID_NAME ->
  hasOptionalVariable ID_NAME o = false.
Proof.
  intros Hin Hr Hd Hx.
  destruct (hasOptionalVariable ID_NAME o) eqn:Hc; [| reflexivity].
  apply hasOptionalVariable_true in Hc.
  destruct Hc as [Hnil | Hall].
  - rewrite Hnil in Hin. destruct Hin.
  - rewrite Forall_forall in Hall.
    destruct (Hall v Hin) as [(Hp & Hn & _) | [Hnr | Hdef]].
    + destruct Hx as [Hx | Hx]; contradiction.
    + congruence.
    + contradiction.
Qed.

(** C1, as stated, fails: a root operation whose only variable is the required
    [id] meets the three-way condition of the claim, and the check returns
    false for it. *)
Lemma hasOptionalVariable_id_at_root :
  ~ (hasOptionalVariable c.ID_NAME id_only = true
     <-> all_optional_by_spec c.ID_NAME id_only).
Proof.
  intros [_ H].
  assert (hasOptionalVariable c.ID_NAME id_only = true) as Hc.
  { apply H. right. repeat constructor. }
  discriminate Hc.
Qed.

(** C2: with an empty path, an operation whose one variable is non-null at the
    outermost level, not named by the identifier convention and without a
    default is not all-optional; with a non-empty path, an operation whose one
    variable is the required identifier variable is. *)
Theorem hasOptionalVariable_single (ID_NAME : string) :
  (forall (o : ApiDefinition) (v : VariableDefinitionNode) (t : TypeNode),
      variableDefinitions (node o) = Some [v] ->
      type v = NonNullTypeNode t ->
      value (name (variable v)) <> ID_NAME ->
      defaultValue v = None ->
      path o = [] ->
      hasOptionalVariable ID_NAME o = false)
  /\ (forall (o : ApiDefinition) (v : VariableDefinitionNode),
         variableDefinitions (node o) = Some [v] ->
         value (name (variable v)) = ID_NAME ->
         isRequiredVariable v = true ->
         path o <> [] ->
         hasOptionalVariable ID_NAME o = true).
Proof.
  split.
  - intros o v t Hvs Ht Hn Hd Hp.
    apply (hasOptionalVariable_blocked ID_NAME o v).
    + unfold variables_of. rewrite Hvs. now left.
    + apply isRequiredVariable_true. now exists t.
    + exact Hd.
    + now left.
  - intros o v Hvs Hn Hr Hp.
    apply hasOptionalVariable_true. right.
    unfold variables_of. rewrite Hvs.
    constructor; [| constructor].
    left. auto.
Qed.

Lemma hasOptionalVariable_single_witness :
  hasOptionalVariable c.ID_NAME input_only = false
  /\ hasOptionalVariable c.ID_NAME id_only_chained = true.
Proof.
  split.
  - apply (proj1 (hasOptionalVariable_single c.ID_NAME) input_only
             (variable_def "input" (NonNullTypeNode (named "IssueCreateInput")) None)
             (named "IssueCreateInput"));
      [reflexivity | reflexivity | discriminate | reflexivity | reflexivity].
  - apply (proj2 (hasOptionalVariable_single c.ID_NAME) id_only_chained
             (variable_def "id" (NonNullTypeNode (named "String")) None));
      [reflexivity | reflexivity | reflexivity | discriminate].
Defined.

(** C3: for the variables [id] and [input], both non-null and without
    defaults, the check returns false whatever the path, empty or not: one of
    the two is required, without default and not exempt. *)
Theorem hasOptionalVariable_id_and_input (ID_NAME : string) (t1 t2 : TypeNode) :
  hasOptionalVariable ID_NAME (id_and_input t1 t2 []) = false
  /\ (forall p : list string,
         p <> [] -> hasOptionalVariable ID_NAME (id_and_input t1 t2 p) = false).
Proof.
  split; [reflexivity |].
  intros p _.
  destruct (String.eqb_spec "input" ID_NAME) as [<- | Hne].
  - apply (hasOptionalVariable_blocked "input" _
             (variable_def "id" (NonNullTypeNode t1) None));
      [now left | reflexivity | reflexivity | right; discriminate].
  - apply (hasOptionalVariable_blocked ID_NAME _
             (variable_def "input" (NonNullTypeNode t2) None));
      [right; now left | reflexivity | reflexivity | now right].
Qed.

Lemma hasOptionalVariable_id_and_input_witness :
  hasOptionalVariable c.ID_NAME
    (id_and_input (named "String") (named "IssueUpdateInput") ["issue"]) = false.
Proof.
  apply (proj2 (hasOptionalVariable_id_and_input c.ID_NAME (named "String")
                  (named "IssueUpdateInput")) ["issue"]).
  discriminate.
Defined.

(** C4: a variable is required exactly when the outermost wrapper of its type
    is the non-null one; the check does not look inside, so a list of non-null
    elements is not required. *)
Theorem isRequiredVariable_outermost :
  (forall v : VariableDefinitionNode,
      isRequiredVariable v = true <-> exists t, type v = NonNullTypeNode t)
  /\ (forall (n : string) (t : TypeNode) (d : option ValueNode),
         isRequiredVariable (variable_def n (ListTypeNode (NonNullTypeNode t)) d)
         = false).
Proof.
  split.
  - exact isRequiredVariable_true.
  - reflexivity.
Qed.

(** C7: an operation whose variable list is empty or absent is all-optional. *)
Theorem hasOptionalVariable_no_variables (ID_NAME : string) (o : ApiDefinition) :
  variables_of o = [] -> hasOptionalVariable ID_NAME o = true.
Proof.
  intro H. apply hasOptionalVariable_true. now left.
Qed.

Lemma hasOptionalVariable_no_variables_witness :
  hasOptionalVariable c.ID_NAME (operation None []) = true
  /\ hasOptionalVariable c.ID_NAME (operation (Some []) ["issue"]) = true.
Proof.
  split.
  - apply (hasOptionalVariable_no_variables c.ID_NAME (operation None [])).
    reflexivity.
  - apply (hasOptionalVariable_no_variables c.ID_NAME
             (operation (Some []) ["issue"])).
    reflexivity.
Defined.

(** C10: for an operation whose variable list is empty or absent, neither the
    variable-presence check nor the other-variable check holds, whatever the
    name asked about. *)
Theorem no_variables_no_match (o : ApiDefinition) (variableName : string) :
  variables_of o = [] ->
  hasVariable o variableName = false /\ hasOtherVariable o variableName = false.
Proof.
  unfold variables_of, hasVariable, hasOtherVariable.
  destruct (variableDefinitions (node o)) as [vs |]; intro H.
  - subst vs. split; reflexivity.
  - split; reflexivity.
Qed.

Lemma no_variables_no_match_witness :
  (hasVariable (operation None []) "id" = false
   /\ hasOtherVariable (operation None []) "id" = false)
  /\ (hasVariable (operation (Some []) ["issue"]) "id" = false
      /\ hasOtherVariable (operation (Some []) ["issue"]) "id" = false).
Proof.
  split.
  - apply (no_variables_no_match (operation None []) "id"). reflexivity.
  - apply (no_variables_no_match (operation (Some []) ["issue"]) "id").
    reflexivity.
Defined.

(** ** Type-name resolution *)

Lemma kind_is_other (okind : option string) (k : string) :
  okind <> Some k -> kind_is okind k = false.
Proof.
  destruct okind as [k' |]; simpl; intro H; [| reflexivity].
  apply String.eqb_neq. congruence.
Qed.

Lemma getTypeName_NameNode (n : NameNode) :
  getTypeName (js_of_NameNode n) = Return (value n).
Proof. reflexivity. Qed.

Lemma getTypeName_TypeNode (t : TypeNode) :
  getTypeName (js_of_TypeNode t) = Return (innermost_name t).
Proof.
  induction t as [n | t IH | t IH].
  - reflexivity.
  - exact IH.
  - exact IH.
Qed.

(** Outside the declared parameter type the function can throw: a wrapper
    without its [type] field makes it read [kind] of [undefined]. *)
Example getTypeName_throws_on_malformed :
  getTypeName (wrap_non_null JsUndefined) = Throw TypeError.
Proof. reflexivity. Qed.

(** C5: on every argument of its declared type (a plain string, a name node,
    or a type node built from named types and non-null and list wrappers)
    type-name resolution returns, and what it returns is the string itself,
    the name's value, or the innermost named type's name; and on an object of
    any other kind it returns the sentinel [UNKNOWN_OPERATION_TYPE], whatever
    the object's fields. *)
Theorem getTypeName_never_throws :
  (forall a : TypeNameArg, getTypeName (js_of_arg a) = Return (resolved_name a))
  /\ (forall (okind : option string) (otype oname ovalue : JsValue),
         unrecognized okind ->
         getTypeName (JsObject okind otype oname ovalue)
         = Return "UNKNOWN_OPERATION_TYPE").
Proof.
  split.
  - intros [s | n | t].
    + reflexivity.
    + apply getTypeName_NameNode.
    + apply getTypeName_TypeNode.
  - intros okind otype oname ovalue (H1 & H2 & H3 & H4).
    cbn [getTypeName].
    now rewrite (kind_is_other _ _ H1), (kind_is_other _ _ H2),
      (kind_is_other _ _ H3), (kind_is_other _ _ H4).
Qed.

Lemma getTypeName_never_throws_witness :
  getTypeName
    (JsObject (Some Kind.VARIABLE) JsUndefined
       (js_of_NameNode {| value := "id" |}) JsUndefined)
  = Return "UNKNOWN_OPERATION_TYPE".
Proof.
  apply (proj2 getTypeName_never_throws (Some Kind.VARIABLE)).
  repeat split; discriminate.
Defined.

(** C6: wrapping a type in non-null, then list, then non-null does not change
    what type-name resolution yields, for a typed base node and indeed for
    any value put inside the wrappers. *)
Theorem getTypeName_rewrapped :
  (forall t : TypeNode,
      getTypeName
        (js_of_TypeNode (NonNullTypeNode (ListTypeNode (NonNullTypeNode t))))
      = getTypeName (js_of_TypeNode t))
  /\ (forall b : JsValue,
         getTypeName (wrap_non_null (wrap_list (wrap_non_null b)))
         = getTypeName b).
Proof.
  split; intros; reflexivity.
Qed.

(** ** The extension check on ordinary file names *)

Lemma charCodeAt_append (s t : string) (k : nat) :
  NodePath.charCodeAt (s ++ t) (k + String.length s) = NodePath.charCodeAt t k.
Proof.
  unfold NodePath.charCodeAt. now rewrite <- append_correct2.
Qed.

Lemma substring_append_right (s t : string) (k n : nat) :
  String.substring (k + String.length s) n (s ++ t) = String.substring k n t.
Proof.
  induction s as [| a s IH]; simpl.
  - now rewrite Nat.add_0_r.
  - rewrite Nat.add_succ_r. exact IH.
Qed.

Lemma string_length_append (s t : string) :
  String.length (s ++ t) = String.length s + String.length t.
Proof.
  induction s as [| a s IH]; simpl; [reflexivity | now rewrite IH].
Qed.

Lemma charCode_slash (ch : ascii) :
  Z.of_nat (nat_of_ascii ch) = NodePath.CHAR_FORWARD_SLASH -> ch = "/"%char.
Proof.
  unfold NodePath.CHAR_FORWARD_SLASH. intro H.
  assert (nat_of_ascii ch = 47) as Hn by lia.
  rewrite <- (ascii_nat_embedding ch), Hn. reflexivity.
Qed.

(** Once the last dot and the end of the component are fixed and a character
    was seen before the dot, the rest of the scan changes none of it. *)
Lemma extname_scan_settled (path : string) (n : nat) (st : NodePath.scan) :
  NodePath.startDot st <> (-1)%Z ->
  NodePath.end_ st <> (-1)%Z ->
  NodePath.preDotState st <> 0%Z ->
  NodePath.startDot (NodePath.extname_scan path n st) = NodePath.startDot st
  /\ NodePath.end_ (NodePath.extname_scan path n st) = NodePath.end_ st
  /\ NodePath.preDotState (NodePath.extname_scan path n st) <> 0%Z.
Proof.
  revert st. induction n as [| i IH]; intros st Hd He Hp; simpl.
  - auto.
  - destruct (NodePath.charCodeAt path i =? NodePath.CHAR_FORWARD_SLASH)%Z.
    + destruct (negb (NodePath.matchedSlash st)); simpl; auto.
    + unfold NodePath.mark_end.
      destruct (Z.eqb_spec (NodePath.end_ st) (-1)) as [Hx | _]; [contradiction |].
      unfold NodePath.note_char.
      destruct (Z.eqb_spec (NodePath.startDot st) (-1)) as [Hx | _];
        [contradiction |].
      destruct (NodePath.charCodeAt path i =? NodePath.CHAR_DOT)%Z; simpl.
      * destruct (negb (NodePath.preDotState st =? 1)%Z).
        -- apply (IH {| NodePath.startDot := NodePath.startDot st;
                        NodePath.startPart := NodePath.startPart st;
                        NodePath.end_ := NodePath.end_ st;
                        NodePath.matchedSlash := NodePath.matchedSlash st;
                        NodePath.preDotState := 1 |});
             simpl; [exact Hd | exact He | discriminate].
        -- now apply IH.
      * apply (IH {| NodePath.startDot := NodePath.startDot st;
                     NodePath.startPart := NodePath.startPart st;
                     NodePath.end_ := NodePath.end_ st;
                     NodePath.matchedSlash := NodePath.matchedSlash st;
                     NodePath.preDotState := -1 |});
          simpl; [exact Hd | exact He | discriminate].
Qed.

Lemma extname_scan_other (path : string) (i : nat) (st : NodePath.scan) :
  NodePath.charCodeAt path i <> NodePath.CHAR_FORWARD_SLASH ->
  NodePath.extname_scan path (S i) st
  = NodePath.extname_scan path i
      (NodePath.note_char (NodePath.charCodeAt path i) i (NodePath.mark_end i st)).
Proof.
  intro H. cbn [NodePath.extname_scan].
  destruct (Z.eqb_spec (NodePath.charCodeAt path i) NodePath.CHAR_FORWARD_SLASH);
    [contradiction | reflexivity].
Qed.

Lemma mark_end_settled (i : nat) (st : NodePath.scan) :
  NodePath.end_ st <> (-1)%Z -> NodePath.mark_end i st = st.
Proof.
  intro H. unfold NodePath.mark_end.
  destruct (Z.eqb_spec (NodePath.end_ st) (-1)); [contradiction | reflexivity].
Qed.

(** The scan over a name that ends in [.ts] after a character other than the
    separator: its four rightmost characters fix the end and the dot of the
    extension and record that something precedes the dot. *)
Lemma extname_scan_ts_suffix (stem : string) (ch : ascii) :
  ch <> "/"%char ->
  let path := stem ++ String ch ".ts" in
  NodePath.extname_scan path (String.length path) NodePath.scan_init
  = NodePath.extname_scan path (String.length stem)
      {| NodePath.startDot := Z.of_nat (1 + String.length stem);
         NodePath.startPart := 0;
         NodePath.end_ := Z.of_nat (3 + String.length stem) + 1;
         NodePath.matchedSlash := false;
         NodePath.preDotState :=
           if (Z.of_nat (nat_of_ascii ch) =? NodePath.CHAR_DOT)%Z then 1 else -1 |}.
Proof.
  intros Hch path.
  assert (forall k, NodePath.charCodeAt path (k + String.length stem)
                    = NodePath.charCodeAt (String ch ".ts") k) as Hcode.
  { intro k. apply charCodeAt_append. }
  replace (String.length path) with (4 + String.length stem)
    by (unfold path; rewrite string_length_append; simpl; lia).
  change (4 + String.length stem) with (S (3 + String.length stem)).
  rewrite extname_scan_other by (rewrite Hcode; discriminate).
  rewrite Hcode.
  change (3 + String.length stem) with (S (2 + String.length stem)) at 1.
  rewrite extname_scan_other by (rewrite Hcode; discriminate).
  rewrite Hcode.
  change (2 + String.length stem) with (S (1 + String.length stem)) at 1.
  rewrite extname_scan_other by (rewrite Hcode; discriminate).
  rewrite Hcode.
  change (1 + String.length stem) with (S (0 + String.length stem)) at 1.
  rewrite extname_scan_other.
  2:{ rewrite Hcode. intro H. apply Hch. now apply charCode_slash. }
  rewrite Hcode.
  change (0 + String.length stem) with (String.length stem).
  f_equal.
  set (s3 := NodePath.note_char (NodePath.charCodeAt (String ch ".ts") 1) _ _).
  assert (NodePath.end_ s3 <> (-1)%Z) as He3 by (simpl; lia).
  rewrite (mark_end_settled _ s3 He3).
  unfold NodePath.note_char.
  change (NodePath.charCodeAt (String ch ".ts") 0) with (Z.of_nat (nat_of_ascii ch)).
  destruct (Z.eqb_spec (NodePath.startDot s3) (-1)) as [Hx | _];
    [simpl in Hx; lia |].
  destruct (Z.of_nat (nat_of_ascii ch) =? NodePath.CHAR_DOT)%Z; reflexivity.
Qed.

(** Every name that ends in [.ts] after a character other than the separator
    has the extension [.ts]. *)
Lemma extname_ts (stem : string) (ch : ascii) :
  ch <> "/"%char -> NodePath.extname (stem ++ String ch ".ts") = ".ts".
Proof.
  intro Hch. unfold NodePath.extname.
  rewrite (extname_scan_ts_suffix stem ch Hch).
  match goal with
  | |- context [NodePath.extname_scan ?p ?n ?st] =>
      destruct (extname_scan_settled p n st) as (Hd & He & Hp);
      [simpl; lia | simpl; lia
       | simpl; destruct (Z.of_nat (nat_of_ascii ch) =? NodePath.CHAR_DOT)%Z;
         discriminate |];
      cbn [NodePath.startDot NodePath.end_ NodePath.preDotState] in Hd, He, Hp;
      rewrite Hd, He
  end.
  clear Hd He.
  rewrite (proj2 (Z.eqb_neq _ _) Hp).
  replace (Z.of_nat (1 + String.length stem) =? -1)%Z with false
    by (symmetry; apply Z.eqb_neq; lia).
  replace (Z.of_nat (3 + String.length stem) + 1 =? -1)%Z with false
    by (symmetry; apply Z.eqb_neq; lia).
  replace (Z.of_nat (1 + String.length stem)
           =? Z.of_nat (3 + String.length stem) + 1 - 1)%Z with false
    by (symmetry; apply Z.eqb_neq; lia).
  rewrite andb_false_r. cbn [orb andb].
  unfold NodePath.slice.
  rewrite Nat2Z.id.
  replace (Z.to_nat (Z.of_nat (3 + String.length stem) + 1
                     - Z.of_nat (1 + String.length stem))) with 3 by lia.
  rewrite substring_append_right. reflexivity.
Qed.

(** [extname] on the paths of the specification's example and on the two
    shapes where the extension is not the suffix: a name that starts with its
    only dot has no extension, and trailing separators are skipped. *)
Example extname_examples :
  NodePath.extname "operations.ts" = ".ts"
  /\ NodePath.extname "operations.js" = ".js"
  /\ NodePath.extname "src/generated/_generated_sdk.ts" = ".ts"
  /\ NodePath.extname ".ts" = ""
  /\ NodePath.extname "generated/.ts" = ""
  /\ NodePath.extname "operations.ts/" = ".ts"
  /\ NodePath.extname "operations" = "".
Proof. repeat split. Qed.

(** ** Validation *)

Arguments validate {GraphQLSchema DocumentFile} schema documents config outputFile.

Lemma nonempty_string_truthy (x : JsValue) :
  nonempty_string x <-> truthy x && is_string x = true.
Proof.
  split.
  - intros (s & -> & Hs). simpl.
    rewrite andb_true_r, negb_true_iff. now apply String.eqb_neq.
  - destruct x; simpl; try discriminate;
      rewrite ?andb_false_r, ?andb_true_r; try discriminate.
    rewrite negb_true_iff. intro H.
    exists s. split; [reflexivity | now apply String.eqb_neq].
Qed.

(** What [validate] completes with, as one case analysis in the order of its
    two checks. *)
Lemma validate_completion {S D : Type} (schema : S) (documents : list D)
    (config : RawSdkPluginConfig) (outputFile : string)
    (log : list (LogEntry RawSdkPluginConfig JsError)) :
  completion (validate schema documents config outputFile) log
  = if negb (NodePath.extname outputFile =? ".ts")%string
    then Throw (Error (extension_message outputFile))
    else if negb (truthy (documentFile config))
            || negb (is_string (documentFile config))
         then Throw (Error documentFile_message)
         else Return tt.
Proof.
  unfold completion, validate, bind, write_log, throw, ret.
  destruct (negb (NodePath.extname outputFile =? ".ts")%string); [reflexivity |].
  destruct (negb (truthy (documentFile config))
            || negb (is_string (documentFile config))); reflexivity.
Qed.

(** C8, as the code has it: validation throws exactly when the extension of
    the output path, as [extname] computes it, is not [.ts], or the
    [documentFile] setting is not a non-empty string; with [documentFile]
    [./documents.ts] it succeeds for [operations.ts], and for [operations.js]
    it throws the error whose message names the [.ts] extension. *)
Theorem validate_throws_iff {S D : Type} (schema : S) (documents : list D)
    (log : list (LogEntry RawSdkPluginConfig JsError)) :
  (forall (config : RawSdkPluginConfig) (outputFile : string),
      throws (validate schema documents config outputFile) log
      <-> NodePath.extname outputFile <> ".ts"
          \/ ~ nonempty_string (documentFile config))
  /\ completion (validate schema documents documents_config "operations.ts") log
     = Return tt
  /\ completion (validate schema documents documents_config "operations.js") log
     = Throw (Error (prefix ++ " output file extension to be " ++ dq ++ ".ts"
                       ++ dq ++ " but is " ++ dq ++ "operations.js" ++ dq)).
Proof.
  split; [| split; reflexivity].
  intros config outputFile. unfold throws.
  rewrite validate_completion, nonempty_string_truthy.
  destruct (String.eqb_spec (NodePath.extname outputFile) ".ts") as [He | He];
    simpl.
  - destruct (truthy (documentFile config)), (is_string (documentFile config));
      simpl; split.
    + intros [e H]; discriminate.
    + intros [H | H]; [contradiction | now contradiction H].
    + intros _. right. discriminate.
    + intros _. eexists; reflexivity.
    + intros _. right. discriminate.
    + intros _. eexists; reflexivity.
    + intros _. right. discriminate.
    + intros _. eexists; reflexivity.
  - split.
    + intros _. now left.
    + intros _. eexists; reflexivity.
Qed.

(** C8, as stated, fails: the output path [.ts] ends in [.ts] and the
    [documentFile] setting is a non-empty string, yet validation throws,
    because [extname] gives a file name that starts with its only dot no
    extension. *)
Lemma validate_rejects_dotfile :
  ~ (throws (validate tt (@nil unit) documents_config ".ts") []
     <-> ends_with ".ts" ".ts" = false
         \/ ~ nonempty_string (documentFile documents_config)).
Proof.
  intros [H _].
  destruct H as [H | H].
  - exists (Error (extension_message ".ts")). reflexivity.
  - discriminate H.
  - apply H. exists "./documents.ts". split; [reflexivity | discriminate].
Qed.

(** ** The plugin entry point *)

Section Completions.

Context {E L : Type}.

(** An exception ends a sequence where it is raised. *)
Lemma bind_throws {A B : Type} (m : M E L A) (k : A -> M E L B)
    (log : list L) (e : E) :
  completion m log = Throw e -> completion (bind m k) log = Throw e.
Proof.
  unfold completion, bind.
  destruct (m log) as [log' [a | e']]; simpl; intro H;
    [discriminate | now inversion H].
Qed.

Lemma bind_returns {A B : Type} (m : M E L A) (k : A -> M E L B)
    (log log' : list L) (a : A) :
  m log = (log', Return a) -> bind m k log = k a log'.
Proof.
  unfold bind. now intros ->.
Qed.

(** [try]/[catch] with a handler that logs and rethrows: the completion is
    that of the body, and a thrown value goes through unchanged. *)
Lemma try_catch_rethrow {A : Type} (m : M E L A) (entry : E -> L)
    (log : list L) :
  try_catch m (fun e => bind (write_log (entry e)) (fun _ => throw e)) log
  = match m log with
    | (log', Return a) => (log', Return a)
    | (log', Throw e) => ((log' ++ [entry e])%list, Throw e)
    end.
Proof.
  unfold try_catch, bind, write_log, throw.
  destruct (m log) as [log' [a | e]]; reflexivity.
Qed.


(** A sequence that returns went through a returning first step. *)
Lemma bind_returns_inv {A B : Type} (m : M E L A) (k : A -> M E L B)
    (log l : list L) (b : B) :
  bind m k log = (l, Return b) ->
  exists (a : A) (log' : list L), m log = (log', Return a) /\ k a log' = (l, Return b).
Proof.
  unfold bind.
  destruct (m log) as [log' [a | e]]; intro H; [| discriminate].
  now exists a, log'.
Qed.


(** [map] returns when its callback always does. *)
Lemma map_M_returns {A B : Type} (f : A -> M E L B) (xs : list A) :
  (forall x, always_returns (f x)) -> always_returns (map_M f xs).
Proof.
  intros Hf.
  induction xs as [| x xs IH]; intro log; cbn [map_M].
  - now exists log, [].
  - destruct (Hf x log) as (l1 & y & E1).
    rewrite (bind_returns _ _ _ _ _ E1).
    destruct (IH l1) as (l2 & ys & E2).
    rewrite (bind_returns _ _ _ _ _ E2).
    now exists l2, (y :: ys).
Qed.

End Completions.

Section PluginProperties.

Variables GraphQLSchema DocumentFile : Type.
Variables SdkDocument DocumentNode FragmentDefinition SdkVisitorResult exn : Type.

Local Abbreviation Call := (M exn (PluginLog exn)).

Variable processSdkDocuments : list DocumentFile -> Call (list SdkDocument).
Variable getRootDocuments : list SdkDocument -> Call (list DocumentNode).
Variable concatAST : list DocumentNode -> Call DocumentNode.
Variable getFragmentsFromAst :
  DocumentNode -> RawSdkPluginConfig -> Call (list FragmentDefinition).
Variable createVisitor :
  GraphQLSchema -> list DocumentFile -> list DocumentNode ->
  list FragmentDefinition -> RawSdkPluginConfig -> option string ->
  Call SdkVisitorResult.
Variable getChainKeys : list SdkDocument -> Call (list string).
Variable getChildDocuments : list SdkDocument -> string -> Call (list DocumentNode).
Variable printRequesterType : RawSdkPluginConfig -> Call (list string).
Variable filterJoin : list string -> string -> Call string.
Variable nonNullable : option string -> bool.
Variable sdkContent : SdkVisitorResult -> string.
Variable NAMESPACE_DOCUMENT : string.

Let the_try :=
  plugin_try GraphQLSchema DocumentFile SdkDocument DocumentNode
    FragmentDefinition SdkVisitorResult exn processSdkDocuments
    getRootDocuments concatAST getFragmentsFromAst createVisitor getChainKeys
    getChildDocuments printRequesterType filterJoin nonNullable sdkContent
    NAMESPACE_DOCUMENT.

Let the_plugin :=
  plugin GraphQLSchema DocumentFile SdkDocument DocumentNode
    FragmentDefinition SdkVisitorResult exn processSdkDocuments
    getRootDocuments concatAST getFragmentsFromAst createVisitor getChainKeys
    getChildDocuments printRequesterType filterJoin nonNullable sdkContent
    NAMESPACE_DOCUMENT.

Variable schema : GraphQLSchema.
Variable documents : list DocumentFile.
Variable config : RawSdkPluginConfig.

(** The entry point as one case analysis on what the [try] block does. *)
Lemma plugin_unfold (log : list (PluginLog exn)) :
  the_plugin schema documents config log
  = match the_try schema documents config log with
    | (log', Return out) => (log', Return out)
    | (log', Throw e) => ((log' ++ [LogFatal e])%list, Throw e)
    end.
Proof.
  unfold the_plugin, the_try, plugin.
  apply (try_catch_rethrow _ (fun e => LogFatal e)).
Qed.

(** X15: the first stage: an exception of the document processing leaves the
    entry point as it is. *)
Lemma plugin_processing_throws (log : list (PluginLog exn)) (e : exn) :
  completion (processSdkDocuments documents)
    (log ++ [LogInfo "Processing documents"]) = Throw e ->
  completion (the_plugin schema documents config) log = Throw e.
Proof.
  intro H.
  assert (completion (the_try schema documents config) log = Throw e) as Ht.
  { unfold the_try, plugin_try.
    unfold completion at 1. unfold bind at 1. unfold write_log at 1.
    now apply bind_throws. }
  unfold completion in *. rewrite plugin_unfold.
  destruct (the_try schema documents config log) as [log' [out | e']];
    simpl in *; [discriminate | exact Ht].
Qed.


(** C9: when the body of the entry point raises an exception, in whichever
    of its steps, the entry point throws that same value, after logging it
    as fatal, and returns no output structure; when the body returns an
    output structure, the entry point returns it. *)
Theorem plugin_rethrows (log : list (PluginLog exn)) :
  (forall e : exn,
      completion (the_try schema documents config) log = Throw e ->
      completion (the_plugin schema documents config) log = Throw e
      /\ log_after (the_plugin schema documents config) log
         = (log_after (the_try schema documents config) log ++ [LogFatal e])%list)
  /\ (forall out : PluginOutput,
         completion (the_try schema documents config) log = Return out ->
         completion (the_plugin schema documents config) log = Return out).
Proof.
  unfold completion, log_after. rewrite plugin_unfold.
  destruct (the_try schema documents config log) as [log' [out | e']];
    simpl; split.
  - intros e H; discriminate.
  - auto.
  - intros e H. inversion H; subst. split; reflexivity.
  - intros out H; discriminate.
Qed.

(** ** Further properties of the entry point *)

Let the_chainVisitor :=
  chainVisitor GraphQLSchema DocumentFile SdkDocument DocumentNode
    FragmentDefinition SdkVisitorResult exn createVisitor getChildDocuments
    schema documents config.

(** The lines the entry point hands to [filterJoin]. *)
Let the_parts (requester : list string) (chainVisitors : list SdkVisitorResult)
    (rootVisitor : SdkVisitorResult) : list string :=
  ([("import * as " ++ NAMESPACE_DOCUMENT ++ " from '"
       ++ template (documentFile config) ++ "'")%string;
    ("export * from '" ++ template (documentFile config) ++ "'" ++ lf)%string]
   ++ requester
   ++ List.map sdkContent chainVisitors
   ++ [sdkContent rootVisitor])%list.

(** What a returning [try] block went through, stage by stage. *)
Lemma plugin_try_stages (log l : list (PluginLog exn)) (out : PluginOutput) :
  the_try schema documents config log = (l, Return out) ->
  exists (sdkDocuments : list SdkDocument) (rootDocuments : list DocumentNode)
         (rootFragments : list FragmentDefinition)
         (rootVisitor : SdkVisitorResult) (chainKeys requester : list string)
         (chainVisitors : list SdkVisitorResult)
         (l5 l6 l7 l8 l9 : list (PluginLog exn)),
    getChainKeys sdkDocuments l5 = (l6, Return chainKeys)
    /\ map_M (the_chainVisitor sdkDocuments rootFragments) chainKeys l6
       = (l7, Return chainVisitors)
    /\ printRequesterType config l8 = (l9, Return requester)
    /\ filterJoin (the_parts requester chainVisitors rootVisitor) lf l9
       = (l, Return (content out))
    /\ prepend out
       = List.filter nonNullable
           [Some "/* eslint-disable @typescript-eslint/no-unused-vars */";
            if not_string_mode (documentMode config)
            then Some "import { DocumentNode } from 'graphql'"
            else None;
            Some "import { ResultOf } from '@graphql-typed-document-node/core'"].
Proof.
  unfold the_try, plugin_try. intro H.
  apply bind_returns_inv in H. destruct H as (u0 & k0 & _ & H).
  apply bind_returns_inv in H. destruct H as (sdkDocuments & k1 & _ & H).
  apply bind_returns_inv in H. destruct H as (rootDocuments & k2 & _ & H).
  apply bind_returns_inv in H. destruct H as (rootAst & k3 & _ & H).
  apply bind_returns_inv in H. destruct H as (rootFragments & k4 & _ & H).
  apply bind_returns_inv in H. destruct H as (u1 & k4a & _ & H).
  apply bind_returns_inv in H. destruct H as (u2 & k4b & _ & H).
  apply bind_returns_inv in H. destruct H as (rootVisitor & l5 & _ & H).
  apply bind_returns_inv in H. destruct H as (chainKeys & l6 & Hkeys & H).
  apply bind_returns_inv in H. destruct H as (chainVisitors & l7 & Hmap & H).
  apply bind_returns_inv in H. destruct H as (u3 & l8 & _ & H).
  apply bind_returns_inv in H. destruct H as (requester & l9 & Hreq & H).
  apply bind_returns_inv in H. destruct H as (text & l10 & Hjoin & H).
  unfold ret in H. inversion H; subst.
  exists sdkDocuments, rootDocuments, rootFragments, rootVisitor, chainKeys,
    requester, chainVisitors, l5, l6, l7, l8, l9.
  repeat split; assumption.
Qed.

Lemma plugin_returns_inv (log : list (PluginLog exn)) (out : PluginOutput) :
  completion (the_plugin schema documents config) log = Return out ->
  exists l, the_try schema documents config log = (l, Return out).
Proof.
  unfold completion. rewrite plugin_unfold.
  destruct (the_try schema documents config log) as [l [out' | e]]; simpl;
    intro H; [| discriminate].
  exists l. congruence.
Qed.

(** X13: when the entry point returns, and [nonNullable] keeps exactly the
    defined entries, the lines to prepend are fixed by the document mode
    alone: the lint directive and the [ResultOf] import, with the
    [DocumentNode] import between them unless the mode is [string]. *)
Theorem plugin_prepend (log : list (PluginLog exn)) (out : PluginOutput) :
  (forall line, nonNullable line = truthy_optional line) ->
  completion (the_plugin schema documents config) log = Return out ->
  prepend out
  = if not_string_mode (documentMode config)
    then [Some "/* eslint-disable @typescript-eslint/no-unused-vars */";
          Some "import { DocumentNode } from 'graphql'";
          Some "import { ResultOf } from '@graphql-typed-document-node/core'"]
    else [Some "/* eslint-disable @typescript-eslint/no-unused-vars */";
          Some "import { ResultOf } from '@graphql-typed-document-node/core'"].
Proof.
  intros Hnn Hret.
  apply plugin_returns_inv in Hret. destruct Hret as [l Hret].
  apply plugin_try_stages in Hret.
  destruct Hret as (? & ? & ? & ? & ? & ? & ? & ? & ? & ? & ? & ? & _ & _ & _ & _ & Hp).
  rewrite Hp. cbn [List.filter]. rewrite !Hnn.
  destruct (not_string_mode (documentMode config)); reflexivity.
Qed.


(** X17: the entry point throws nothing of its own: when every collaborator
    returns, whatever its arguments and the log, the entry point returns an
    output structure. *)
Theorem plugin_returns (log : list (PluginLog exn)) :
  (forall ds, always_returns (processSdkDocuments ds)) ->
  (forall ds, always_returns (getRootDocuments ds)) ->
  (forall ds, always_returns (concatAST ds)) ->
  (forall ast cfg, always_returns (getFragmentsFromAst ast cfg)) ->
  (forall s ds rs fs cfg k, always_returns (createVisitor s ds rs fs cfg k)) ->
  (forall ds, always_returns (getChainKeys ds)) ->
  (forall ds k, always_returns (getChildDocuments ds k)) ->
  (forall cfg, always_returns (printRequesterType cfg)) ->
  (forall parts sep, always_returns (filterJoin parts sep)) ->
  exists out, completion (the_plugin schema documents config) log = Return out.
Proof.
  intros H1 H2 H3 H4 H5 H6 H7 H8 H9.
  assert (forall sdkDocuments rootFragments chainKey,
             always_returns (the_chainVisitor sdkDocuments rootFragments chainKey))
    as Hchain.
  { intros sdkDocuments rootFragments chainKey l.
    unfold the_chainVisitor, chainVisitor.
    rewrite (bind_returns _ _ l _ tt eq_refl).
    destruct (H7 sdkDocuments chainKey (l ++ [LogInfo ("Generating " ++ chainKey ++ " sdk")])%list)
      as (l1 & chainDocuments & Hc).
    rewrite (bind_returns _ _ _ _ _ Hc).
    rewrite (bind_returns _ _ l1 _ tt eq_refl).
    apply H5. }
  assert (exists l out, the_try schema documents config log = (l, Return out))
    as (l & out & Ht).
  { unfold the_try, plugin_try.
    rewrite (bind_returns _ _ log _ tt eq_refl).
    destruct (H1 documents (log ++ [LogInfo "Processing documents"])%list)
      as (l1 & sdkDocuments & E1).
    rewrite (bind_returns _ _ _ _ _ E1).
    destruct (H2 sdkDocuments l1) as (l2 & rootDocuments & E2).
    rewrite (bind_returns _ _ _ _ _ E2).
    destruct (H3 rootDocuments l2) as (l3 & rootAst & E3).
    rewrite (bind_returns _ _ _ _ _ E3).
    destruct (H4 rootAst config l3) as (l4 & rootFragments & E4).
    rewrite (bind_returns _ _ _ _ _ E4).
    rewrite (bind_returns _ _ l4 _ tt eq_refl).
    rewrite (bind_returns _ _ (l4 ++ [LogInfo "Generating root sdk"])%list _ tt
               eq_refl).
    match goal with
    | |- context [createVisitor ?s ?d ?r ?f ?c None] =>
        match goal with
        | |- context [bind (createVisitor s d r f c None) ?k ?l0] =>
            destruct (H5 s d r f c None l0) as (l5 & rootVisitor & E5);
            rewrite (bind_returns _ _ _ _ _ E5)
        end
    end.
    destruct (H6 sdkDocuments l5) as (l6 & chainKeys & E6).
    rewrite (bind_returns _ _ _ _ _ E6).
    destruct (map_M_returns (the_chainVisitor sdkDocuments rootFragments)
                chainKeys (Hchain sdkDocuments rootFragments) l6)
      as (l7 & chainVisitors & E7).
    fold (the_chainVisitor sdkDocuments rootFragments).
    rewrite (bind_returns _ _ _ _ _ E7).
    rewrite (bind_returns _ _ l7 _ tt eq_refl).
    destruct (H8 config (l7 ++ [LogInfo "Printing sdk"])%list)
      as (l8 & requester & E8).
    rewrite (bind_returns _ _ _ _ _ E8).
    match goal with
    | |- context [bind (filterJoin ?ps ?sep) ?k ?l0] =>
        destruct (H9 ps sep l0) as (l9 & text & E9);
        rewrite (bind_returns _ _ _ _ _ E9)
    end.
    eexists. eexists. reflexivity. }
  exists out. unfold completion. rewrite plugin_unfold, Ht. reflexivity.
Qed.

End PluginProperties.

Lemma plugin_rethrows_witness :
  (completion (sample_plugin true) [] = Throw "no operations for issue"
   /\ log_after (sample_plugin true) []
      = (log_after (sample_plugin_try true) []
         ++ [LogFatal "no operations for issue"])%list)
  /\ completion (sample_plugin false) [] = Return sample_output.
Proof.
  split.
  - apply (proj1 (plugin_rethrows unit unit unit unit unit string string
             (fun documents => ret documents)
             (fun sdkDocuments => ret sdkDocuments)
             (fun rootDocuments => ret tt)
             (fun rootAst config => ret [])
             (sample_createVisitor true)
             (fun sdkDocuments => ret ["issue"])
             (fun sdkDocuments chainKey => ret sdkDocuments)
             (fun config => ret ["requester"])
             (fun parts separator => ret (String.concat separator parts))
             (fun line => truthy_optional line)
             (fun visitor => visitor)
             "D" tt [tt; tt] documents_config [])).
    reflexivity.
  - apply (proj2 (plugin_rethrows unit unit unit unit unit string string
             (fun documents => ret documents)
             (fun sdkDocuments => ret sdkDocuments)
             (fun rootDocuments => ret tt)
             (fun rootAst config => ret [])
             (sample_createVisitor false)
             (fun sdkDocuments => ret ["issue"])
             (fun sdkDocuments chainKey => ret sdkDocuments)
             (fun config => ret ["requester"])
             (fun parts separator => ret (String.concat separator parts))
             (fun line => truthy_optional line)
             (fun visitor => visitor)
             "D" tt [tt; tt] documents_config [])).
    reflexivity.
Defined.

(** * Further properties of the inspectors *)

Lemma hasVariable_true (o : ApiDefinition) (n : string) :
  hasVariable o n = true <-> Exists (named_as n) (variables_of o).
Proof.
  unfold hasVariable, variables_of, named_as.
  destruct (variableDefinitions (node o)) as [vs |].
  - rewrite existsb_exists, Exists_exists.
    split; intros (v & Hin & Hv); exists v; split; auto;
      now apply String.eqb_eq.
  - split; [discriminate | intro H; inversion H].
Qed.

Lemma hasOtherVariable_false (o : ApiDefinition) (n : string) :
  hasOtherVariable o n = false <-> Forall (named_as n) (variables_of o).
Proof.
  unfold hasOtherVariable, variables_of, named_as.
  destruct (variableDefinitions (node o)) as [vs |].
  - induction vs as [| v vs IH]; simpl.
    + split; auto.
    + rewrite orb_false_iff, negb_false_iff, String.eqb_eq, IH.
      split.
      * intros [H1 H2]. now constructor.
      * intro H. inversion H; auto.
  - split; auto.
Qed.

(** X1: one of the two name checks holds, whatever the name asked about,
    exactly when the operation has a variable at all. *)
Theorem name_checks_cover (o : ApiDefinition) (n : string) :
  hasVariable o n || hasOtherVariable o n = true <-> variables_of o <> [].
Proof.
  unfold hasVariable, hasOtherVariable, variables_of.
  destruct (variableDefinitions (node o)) as [[| v vs] |]; simpl.
  - split; [discriminate | intro H; now contradiction H].
  - destruct (value (name (variable v)) =? n)%string; simpl;
      split; try reflexivity; try discriminate.
    intros _. now rewrite orb_true_r.
  - split; [discriminate | intro H; now contradiction H].
Qed.

(** X2: the other-variable check is false exactly when every variable of the
    operation carries the name asked about; so for two different names it is
    false for both only when the operation has no variable. *)
Theorem hasOtherVariable_two_names (o : ApiDefinition) (a b : string) :
  (hasOtherVariable o a = false <-> Forall (named_as a) (variables_of o))
  /\ (a <> b ->
      hasOtherVariable o a = false -> hasOtherVariable o b = false ->
      variables_of o = []).
Proof.
  split; [apply hasOtherVariable_false |].
  intros Hab Ha Hb.
  apply hasOtherVariable_false in Ha. apply hasOtherVariable_false in Hb.
  destruct (variables_of o) as [| v vs]; [reflexivity |].
  inversion Ha; inversion Hb; subst. unfold named_as in *. congruence.
Qed.

Lemma hasOtherVariable_two_names_witness :
  variables_of (operation (Some []) ["issue"]) = [].
Proof.
  apply (proj2 (hasOtherVariable_two_names (operation (Some []) ["issue"])
                  "id" "input")); [discriminate | reflexivity | reflexivity].
Defined.

(** X3: when the name asked about matches a variable and another variable
    differs from it, the operation has at least two variables. *)
Theorem both_name_checks_two_variables (o : ApiDefinition) (n : string) :
  hasVariable o n = true -> hasOtherVariable o n = true ->
  2 <= length (variables_of o).
Proof.
  intros Hv Ho.
  apply hasVariable_true in Hv.
  assert (~ Forall (named_as n) (variables_of o)) as Hn.
  { intro H. apply hasOtherVariable_false in H. congruence. }
  destruct (variables_of o) as [| v [| v' vs]]; simpl.
  - inversion Hv.
  - exfalso. apply Hn.
    inversion Hv as [? ? H | ? ? H]; subst; [| inversion H].
    now repeat constructor.
  - lia.
Qed.

Lemma both_name_checks_two_variables_witness :
  2 <= length (variables_of (id_and_input (named "String")
                               (named "IssueUpdateInput") ["issue"])).
Proof.
  apply (both_name_checks_two_variables
           (id_and_input (named "String") (named "IssueUpdateInput") ["issue"])
           "id"); reflexivity.
Defined.

(** The callback of [every], as a function of the path and the variable. *)
Lemma hasOptionalVariable_every (ID_NAME : string)
    (vs : list VariableDefinitionNode) (p : list string) :
  hasOptionalVariable ID_NAME (operation (Some vs) p)
  = forallb
      (fun v =>
         (if truthy_length (length p) then isIdVariable ID_NAME v else false)
         || negb (isRequiredVariable v)
         || truthy_optional (defaultValue v))
      vs.
Proof.
  unfold hasOptionalVariable, operation; simpl.
  destruct vs; reflexivity.
Qed.

Lemma operation_eta (o : ApiDefinition) :
  o = operation (variableDefinitions (node o)) (path o).
Proof.
  destruct o as [[vs] p]. reflexivity.
Qed.

Lemma every_callback_false (ID_NAME : string) (p : list string)
    (v : VariableDefinitionNode) :
  (if truthy_length (length p) then isIdVariable ID_NAME v else false)
  || negb (isRequiredVariable v) || truthy_optional (defaultValue v) = false
  <-> blocking ID_NAME p v.
Proof.
  unfold blocking, isIdVariable.
  rewrite !orb_false_iff, negb_false_iff.
  destruct (defaultValue v) as [d |]; simpl.
  - split; [intros [_ H]; discriminate | intros (_ & H & _); discriminate].
  - destruct (isRequiredVariable v); simpl.
    + rewrite andb_true_r.
      destruct p as [| k p]; simpl.
      * split; auto.
      * rewrite String.eqb_neq.
        split.
        -- intros [[H _] _]. repeat split; auto.
        -- intros (_ & _ & [H | H]); [discriminate | auto].
    + split; [intros [[_ H] _]; discriminate | intros [H _]; discriminate].
Qed.

(** X4: the check over a concatenated variable list is the conjunction of the
    checks over its two parts, under the same path. *)
Theorem hasOptionalVariable_app (ID_NAME : string)
    (vs1 vs2 : list VariableDefinitionNode) (p : list string) :
  hasOptionalVariable ID_NAME (operation (Some (vs1 ++ vs2)%list) p)
  = hasOptionalVariable ID_NAME (operation (Some vs1) p)
    && hasOptionalVariable ID_NAME (operation (Some vs2) p).
Proof.
  rewrite !hasOptionalVariable_every. apply forallb_app.
Qed.

(** X5: the check reads the path only for whether it is empty, and chaining
    an operation can only turn the check from false to true. *)
Theorem hasOptionalVariable_path (ID_NAME : string)
    (vs : option (list VariableDefinitionNode)) :
  (forall p q : list string,
      p <> [] -> q <> [] ->
      hasOptionalVariable ID_NAME (operation vs p)
      = hasOptionalVariable ID_NAME (operation vs q))
  /\ (forall p : list string,
         hasOptionalVariable ID_NAME (operation vs []) = true ->
         hasOptionalVariable ID_NAME (operation vs p) = true).
Proof.
  split.
  - intros p q Hp Hq.
    apply truthy_length_true in Hp. apply truthy_length_true in Hq.
    unfold hasOptionalVariable, operation; simpl. now rewrite Hp, Hq.
  - intros p H.
    apply hasOptionalVariable_true in H. apply hasOptionalVariable_true.
    destruct H as [H | H]; [now left | right].
    unfold variables_of, operation in *; simpl in *.
    apply Forall_impl with (2 := H).
    intros v [(Hnil & _) | Hv]; [now contradiction Hnil | now right].
Qed.

Lemma hasOptionalVariable_path_witness :
  hasOptionalVariable c.ID_NAME
    (operation (Some [variable_def "id" (NonNullTypeNode (named "String")) None])
       ["issue"])
  = hasOptionalVariable c.ID_NAME
      (operation (Some [variable_def "id" (NonNullTypeNode (named "String")) None])
         ["team"; "issues"])
  /\ hasOptionalVariable c.ID_NAME
       (operation (Some [variable_def "first" (named "Int") None]) ["team"])
     = true.
Proof.
  split.
  - apply (proj1 (hasOptionalVariable_path c.ID_NAME _)); discriminate.
  - apply (proj2 (hasOptionalVariable_path c.ID_NAME
                    (Some [variable_def "first" (named "Int") None]))).
    reflexivity.
Defined.

(** X6: for a root operation the check does not depend on which name is the
    reserved one: no variable is exempt by its name there. *)
Theorem hasOptionalVariable_root_any_name (ID1 ID2 : string) (o : ApiDefinition) :
  path o = [] -> hasOptionalVariable ID1 o = hasOptionalVariable ID2 o.
Proof.
  intro Hp. unfold hasOptionalVariable. rewrite Hp. reflexivity.
Qed.

Lemma hasOptionalVariable_root_any_name_witness :
  hasOptionalVariable "id" id_only = hasOptionalVariable "input" id_only.
Proof.
  apply (hasOptionalVariable_root_any_name "id" "input" id_only). reflexivity.
Defined.

(** X7: a chained operation that has no variable other than the reserved one
    is all-optional, whether that variable is required or not. *)
Theorem hasOptionalVariable_only_id (ID_NAME : string) (o : ApiDefinition) :
  path o <> [] ->
  hasOtherVariable o ID_NAME = false ->
  hasOptionalVariable ID_NAME o = true.
Proof.
  intros Hp Ho.
  apply hasOtherVariable_false in Ho.
  apply hasOptionalVariable_true. right.
  apply Forall_impl with (2 := Ho).
  intros v Hv. unfold named_as in Hv.
  destruct (isRequiredVariable v) eqn:Hr.
  - left. auto.
  - right. now left.
Qed.

Lemma hasOptionalVariable_only_id_witness :
  hasOptionalVariable c.ID_NAME id_only_chained = true.
Proof.
  apply (hasOptionalVariable_only_id c.ID_NAME id_only_chained);
    [discriminate | reflexivity].
Defined.

(** X8: the check is false exactly when some variable of the operation is
    required, has no default and is not exempt as the identifier variable of
    a chained operation. *)
Theorem hasOptionalVariable_false_iff (ID_NAME : string) (o : ApiDefinition) :
  hasOptionalVariable ID_NAME o = false
  <-> Exists (blocking ID_NAME (path o)) (variables_of o).
Proof.
  rewrite (operation_eta o) at 1.
  unfold variables_of.
  destruct (variableDefinitions (node o)) as [vs |].
  - rewrite hasOptionalVariable_every.
    induction vs as [| v vs IH]; simpl.
    + split; [discriminate | intro H; inversion H].
    + rewrite andb_false_iff, IH, every_callback_false.
      split.
      * intros [H | H]; [now left | now right].
      * intro H. inversion H; auto.
  - split; [discriminate | intro H; inversion H].
Qed.

(** * Further properties of type-name resolution *)

(** X9: any stack of non-null and list wrappers around a value leaves what
    type-name resolution yields for it unchanged, be it a name, the sentinel
    or the exception. *)
Theorem getTypeName_wrap_all (ws : list Wrapper) (b : JsValue) :
  getTypeName (wrap_all ws b) = getTypeName b.
Proof.
  induction ws as [| w ws IH]; [reflexivity |].
  destruct w; exact IH.
Qed.

(** * Further properties of validation *)

Lemma charCode_dot (path : string) (i : nat) :
  NodePath.charCodeAt path i = NodePath.CHAR_DOT ->
  String.get i path = Some "."%char.
Proof.
  unfold NodePath.charCodeAt, NodePath.CHAR_DOT.
  destruct (String.get i path) as [ch |]; [| discriminate].
  intro H. assert (nat_of_ascii ch = 46) as Hn by lia.
  rewrite <- (ascii_nat_embedding ch), Hn. reflexivity.
Qed.

(** Without a dot in the path the scan never finds the start of an
    extension. *)
Lemma extname_scan_no_dot (path : string) (n : nat) (st : NodePath.scan) :
  (forall i, String.get i path <> Some "."%char) ->
  NodePath.startDot st = (-1)%Z ->
  NodePath.startDot (NodePath.extname_scan path n st) = (-1)%Z.
Proof.
  intro Hdot. revert st.
  induction n as [| i IH]; intros st Hst; simpl; [exact Hst |].
  destruct (NodePath.charCodeAt path i =? NodePath.CHAR_FORWARD_SLASH)%Z.
  - destruct (negb (NodePath.matchedSlash st)); simpl; auto.
  - apply IH. unfold NodePath.note_char.
    destruct (Z.eqb_spec (NodePath.charCodeAt path i) NodePath.CHAR_DOT) as [Hc | _].
    + exfalso. exact (Hdot i (charCode_dot path i Hc)).
    + assert (NodePath.startDot (NodePath.mark_end i st) = (-1)%Z) as Hm.
      { unfold NodePath.mark_end.
        destruct (NodePath.end_ st =? -1)%Z; simpl; exact Hst. }
      rewrite Hm. simpl. exact Hm.
Qed.

Lemma extname_no_dot (path : string) :
  (forall i, String.get i path <> Some "."%char) -> NodePath.extname path = "".
Proof.
  intro Hdot. unfold NodePath.extname.
  rewrite (extname_scan_no_dot path _ NodePath.scan_init Hdot eq_refl).
  reflexivity.
Qed.

(** X10: validation succeeds for every output path that ends in [.ts] after a
    character other than the path separator, whatever comes before, when the
    [documentFile] setting is a non-empty string. *)
Theorem validate_accepts_ts {S D : Type} (schema : S) (documents : list D)
    (config : RawSdkPluginConfig) (stem : string) (ch : ascii)
    (log : list (LogEntry RawSdkPluginConfig JsError)) :
  ch <> "/"%char ->
  nonempty_string (documentFile config) ->
  completion (validate schema documents config (stem ++ String ch ".ts")) log
  = Return tt.
Proof.
  intros Hch Hdoc.
  rewrite validate_completion, (extname_ts stem ch Hch).
  apply nonempty_string_truthy in Hdoc.
  apply andb_true_iff in Hdoc. destruct Hdoc as [Ht Hs].
  rewrite Ht, Hs. reflexivity.
Qed.

Lemma validate_accepts_ts_witness :
  completion
    (validate tt (@nil unit) documents_config
       ("src/_generated_sd" ++ String "k"%char ".ts")) []
  = Return tt.
Proof.
  apply (validate_accepts_ts tt (@nil unit) documents_config "src/_generated_sd"
           "k"%char []).
  - discriminate.
  - exists "./documents.ts". split; [reflexivity | discriminate].
Defined.

(** X11: validation rejects every output path that contains no dot, with the
    error about the extension, whatever the configuration. *)
Theorem validate_rejects_no_dot {S D : Type} (schema : S) (documents : list D)
    (config : RawSdkPluginConfig) (outputFile : string)
    (log : list (LogEntry RawSdkPluginConfig JsError)) :
  (forall i, String.get i outputFile <> Some "."%char) ->
  completion (validate schema documents config outputFile) log
  = Throw (Error (extension_message outputFile)).
Proof.
  intro Hdot.
  rewrite validate_completion, (extname_no_dot outputFile Hdot). reflexivity.
Qed.

Lemma validate_rejects_no_dot_witness :
  completion (validate tt (@nil unit) documents_config "sdk") []
  = Throw (Error (extension_message "sdk")).
Proof.
  apply (validate_rejects_no_dot tt (@nil unit) documents_config "sdk" []).
  intros [| [| [| i]]]; discriminate.
Defined.

(** X12: the extension is checked first.  A wrong extension gives the error
    about the extension whatever the [documentFile] setting is; the error
    about [documentFile] is thrown only when the extension is right; and the
    two messages are never the same text. *)
Theorem validate_error_order {S D : Type} (schema : S) (documents : list D)
    (config : RawSdkPluginConfig) (outputFile : string)
    (log : list (LogEntry RawSdkPluginConfig JsError)) :
  (NodePath.extname outputFile <> ".ts" ->
   completion (validate schema documents config outputFile) log
   = Throw (Error (extension_message outputFile)))
  /\ (completion (validate schema documents config outputFile) log
      = Throw (Error documentFile_message) ->
      NodePath.extname outputFile = ".ts"
      /\ ~ nonempty_string (documentFile config))
  /\ extension_message outputFile <> documentFile_message.
Proof.
  assert (extension_message outputFile <> documentFile_message) as Hne.
  { intro H. apply (f_equal (String.get 44)) in H. vm_compute in H.
    discriminate H. }
  rewrite validate_completion, nonempty_string_truthy.
  split; [| split; [| exact Hne]].
  - intro He.
    destruct (String.eqb_spec (NodePath.extname outputFile) ".ts");
      [contradiction | reflexivity].
  - destruct (String.eqb_spec (NodePath.extname outputFile) ".ts") as [He | He];
      simpl.
    + destruct (truthy (documentFile config)),
        (is_string (documentFile config)); simpl; intro H;
        try discriminate H; (split; [exact He | discriminate]).
    + intro H. exfalso. apply Hne.
      exact (f_equal (fun r : result JsError unit =>
                        match r with
                        | Throw (Error m) => m
                        | _ => ""
                        end) H).
Qed.

Lemma validate_error_order_witness :
  completion
    (validate tt (@nil unit)
       {| documentFile := JsUndefined; documentMode := None |} "operations.js") []
  = Throw (Error (extension_message "operations.js"))
  /\ (NodePath.extname "operations.ts" = ".ts"
      /\ ~ nonempty_string JsUndefined).
Proof.
  split.
  - apply (proj1 (validate_error_order tt (@nil unit)
                    {| documentFile := JsUndefined; documentMode := None |}
                    "operations.js" [])).
    intro H. vm_compute in H. discriminate H.
  - apply (proj1 (proj2 (validate_error_order tt (@nil unit)
                           {| documentFile := JsUndefined; documentMode := None |}
                           "operations.ts" []))).
    reflexivity.
Defined.

(** * The further properties of the entry point on the sample hosts *)

Lemma plugin_processing_throws_witness :
  completion sample_plugin_unprocessed [] = Throw "cannot process documents".
Proof.
  unfold sample_plugin_unprocessed.
  apply plugin_processing_throws. reflexivity.
Defined.


Lemma plugin_prepend_witness :
  prepend sample_output
  = [Some "/* eslint-disable @typescript-eslint/no-unused-vars */";
     Some "import { ResultOf } from '@graphql-typed-document-node/core'"].
Proof.
  apply (plugin_prepend unit unit unit unit unit string string
           (fun documents => ret documents)
           (fun sdkDocuments => ret sdkDocuments)
           (fun rootDocuments => ret tt)
           (fun rootAst config => ret [])
           (sample_createVisitor false)
           (fun sdkDocuments => ret ["issue"])
           (fun sdkDocuments chainKey => ret sdkDocuments)
           (fun config => ret ["requester"])
           (fun parts separator => ret (String.concat separator parts))
           (fun line => truthy_optional line)
           (fun visitor => visitor)
           "D" tt [tt; tt] documents_config [] sample_output);
    reflexivity.
Defined.


Lemma plugin_returns_witness :
  exists out, completion (sample_plugin false) [] = Return out.
Proof.
  unfold sample_plugin.
  apply plugin_returns;
    intros; intro l;
    try match goal with k : option string |- _ => destruct k end;
    eexists; eexists; reflexivity.
Defined.
